(** * xdp_loader (basic02-prog-by-name): the attachment state machine

    A shallow embedding of [basic02-prog-by-name/xdp_loader.c] and the
    properties of its load / select / attach / detach / info sequence.

    Conventions of the embedding.
    - C [int] values (interface indexes, descriptors, error codes, exit
      statuses) are [Z], and [-err] is the negation of [Z]: the values at
      play are far from the limits of a 32-bit [int]. The [__u32] flag
      word is a [Z] built with the bit operations of the source.
    - A pointer that may be [NULL] is an [option].
    - Every call into libbpf / the kernel and every line written to
      stdout / stderr is recorded, in program order, in a trace of
      [event]s; the answers of the kernel come from a [kernel] record.
    - [printf] calls are recorded with their format string and their
      arguments, not rendered. *)

From Stdlib Require Import ZArith List String Bool Lia.
Import ListNotations.
Local Open Scope string_scope.
Local Open Scope list_scope.
Local Open Scope Z_scope.

(** ** Platform constants *)

Module Linux.
(** [linux/if_link.h] *)
Definition XDP_FLAGS_UPDATE_IF_NOEXIST : Z := Z.shiftl 1 0.
Definition XDP_FLAGS_SKB_MODE : Z := Z.shiftl 1 1.
Definition XDP_FLAGS_DRV_MODE : Z := Z.shiftl 1 2.
Definition XDP_FLAGS_HW_MODE : Z := Z.shiftl 1 3.
Definition XDP_FLAGS_MODES : Z :=
  Z.lor XDP_FLAGS_SKB_MODE (Z.lor XDP_FLAGS_DRV_MODE XDP_FLAGS_HW_MODE).

(** [errno.h] *)
Definition EBUSY : Z := 16.
Definition EOPNOTSUPP : Z := 95.

Definition BPF_PROG_TYPE_SCHED_CLS : Z := 3.
Definition BPF_PROG_TYPE_XDP : Z := 6.
End Linux.
Import Linux.

(** The line terminator written [\n] in the source, and a format string
    that ends with it. *)
Definition nl : string := String (Ascii.ascii_of_nat 10) EmptyString.
Definition line (s : string) : string := (s ++ nl)%string.

(** ** Data model *)

(** [struct config] of [common_user.h], restricted to the fields this
    file reads or writes. *)
Record config := {
  xdp_flags : Z;
  ifindex : Z;
  ifname : string;
  do_unload : bool;
  filename : string;
  progname : string
}.

(** What the program can see of one [struct bpf_program]: its section
    title, its program type and its descriptor. *)
Record bpf_program := {
  section_name : string;
  prog_type : Z;
  prog_fd : Z
}.

(** What the program can see of a [struct bpf_object]. *)
Record bpf_object := {
  object_name : string;
  programs : list bpf_program
}.

(** The two fields of [struct bpf_prog_info] that are printed. *)
Record bpf_prog_info := {
  info_name : string;
  info_id : Z
}.

(** Declarations of [common_user.h] used by the loader; the header is
    not part of the sources at hand, so its exit statuses and the size of
    [config.filename] are parameters of the development. *)
Class common_user := {
  EXIT_OK : Z;
  EXIT_FAIL_OPTION : Z;
  EXIT_FAIL_XDP : Z;
  EXIT_FAIL_BPF : Z;
  sizeof_filename : Z
}.

(** ** Traces *)

Inductive arg :=
| AStr (s : string)
| AInt (z : Z)
| AStrerror (e : Z)          (* strerror(e) *)
| AStrerrorErrno.            (* strerror(errno) *)

Inductive event :=
| Out (fmt : string) (args : list arg)        (* printf *)
| Err (fmt : string) (args : list arg)        (* fprintf(stderr, ...) *)
| Usage                                       (* usage(argv[0], __doc__, long_options) *)
| Call_prog_load (type : Z) (file : string)   (* bpf_prog_load_xattr *)
| Call_find (title : string)                  (* bpf_object__find_program_by_title *)
| Call_set_link (idx fd flags : Z)            (* bpf_set_link_xdp_fd *)
| Call_get_info (fd : Z).                     (* bpf_obj_get_info_by_fd *)

(** The answers of the kernel (through libbpf) to the three calls that
    reach it. *)
Record kernel := {
  k_prog_load : Z -> string -> Z * option bpf_object;
  k_set_link : Z -> Z -> Z -> Z;
  k_get_info : Z -> Z * bpf_prog_info
}.

(** ** A reader / writer monad for the loader's code *)

Definition M (A : Type) : Type := kernel -> list event * A.

Definition ret {A} (a : A) : M A := fun _ => ([], a).

Definition bind {A B} (m : M A) (f : A -> M B) : M B :=
  fun k =>
    let (t1, a) := m k in
    let (t2, b) := f a k in
    (t1 ++ t2, b).

Declare Scope loader_scope.
Delimit Scope loader_scope with loader.
Notation "x <- m ;; f" := (bind m (fun x => f))
  (at level 61, m at next level, right associativity) : loader_scope.
Notation "m ;; f" := (bind m (fun _ => f))
  (at level 61, right associativity) : loader_scope.
Local Open Scope loader_scope.

Definition emit (e : event) : M unit := fun _ => ([e], tt).
Definition printf (fmt : string) (args : list arg) : M unit := emit (Out fmt args).
Definition eprintf (fmt : string) (args : list arg) : M unit := emit (Err fmt args).
Definition usage : M unit := emit Usage.

Definition trace {A} (r : list event * A) : list event := fst r.
Definition result {A} (r : list event * A) : A := snd r.

(** ** libbpf *)

Definition bpf_prog_load_xattr (type : Z) (file : string)
  : M (Z * option bpf_object) :=
  fun k => ([Call_prog_load type file], k_prog_load k type file).

Definition bpf_set_link_xdp_fd (idx fd flags : Z) : M Z :=
  fun k => ([Call_set_link idx fd flags], k_set_link k idx fd flags).

Definition bpf_obj_get_info_by_fd (fd : Z) : M (Z * bpf_prog_info) :=
  fun k => ([Call_get_info fd], k_get_info k fd).

Definition bpf_program__is_xdp (p : bpf_program) : bool :=
  prog_type p =? BPF_PROG_TYPE_XDP.

Definition bpf_program__title (p : bpf_program) : string := section_name p.

Definition bpf_program__fd (p : bpf_program) : Z := prog_fd p.

Definition bpf_object__name (o : bpf_object) : string := object_name o.

(** The first program of the object whose section title is [title]. *)
Definition find_program_by_title (o : bpf_object) (title : string)
  : option bpf_program :=
  find (fun p => String.eqb (section_name p) title) (programs o).

Definition bpf_object__find_program_by_title (o : bpf_object) (title : string)
  : M (option bpf_program) :=
  fun _ => ([Call_find title], find_program_by_title o title).


(** [bpf_object__for_each_program (pos, obj) body] *)
Fixpoint for_each_program (body : bpf_program -> M unit)
    (l : list bpf_program) : M unit :=
  match l with
  | [] => ret tt
  | pos :: rest => body pos ;; for_each_program body rest
  end.

(** ** The loader *)

Definition default_filename : string := "xdp_prog_kern.o".
Definition default_progname : string := "xdp_pass".

Section Loader.
Context {defs : common_user}.

Definition load_bpf_object_file (file : string) : M (option bpf_object) :=
  r <- bpf_prog_load_xattr BPF_PROG_TYPE_XDP file ;;
  let (err, obj) := r in
  if negb (err =? 0) then
    eprintf (line "ERR: loading BPF-OBJ file(%s) (%d): %s")
            [AStr file; AInt err; AStrerror (- err)] ;;
    ret None
  else ret obj.

Definition xdp_unload (idx : Z) (flags : Z) : M Z :=
  err <- bpf_set_link_xdp_fd idx (-1) flags ;;
  if err <? 0 then
    eprintf (line "ERR: link set xdp unload failed (err=%d):%s")
            [AInt err; AStrerror (- err)] ;;
    ret EXIT_FAIL_XDP
  else ret EXIT_OK.

(** The [switch (-err)] of [xdp_load]. *)
Definition xdp_load_hint (e : Z) : M unit :=
  if e =? EBUSY then
    eprintf (line "Hint: XDP already loaded on device use --force to swap/replace") []
  else if e =? EOPNOTSUPP then
    eprintf (line "Hint: Native-XDP not supported use --skb-mode or --auto-mode") []
  else ret tt.

Definition xdp_load (cfg : config) (fd : Z) : M Z :=
  err <- bpf_set_link_xdp_fd (ifindex cfg) fd (xdp_flags cfg) ;;
  if err <? 0 then
    eprintf (line "ERR: dev:%s link set xdp fd failed (%d): %s")
            [AStr (ifname cfg); AInt (- err); AStrerror (- err)] ;;
    xdp_load_hint (- err) ;;
    ret EXIT_FAIL_XDP
  else ret EXIT_OK.

Definition print_avail_progs (obj : bpf_object) : M unit :=
  for_each_program
    (fun pos =>
       if bpf_program__is_xdp pos
       then printf (line " %s") [AStr (bpf_program__title pos)]
       else ret tt)
    (programs obj).

(** The [struct config cfg = { ... }] of [main] with the two [strncpy]
    of the default names; the remaining fields are zero-initialised. *)
Definition initial_cfg : config := {|
  xdp_flags := Z.lor XDP_FLAGS_UPDATE_IF_NOEXIST XDP_FLAGS_DRV_MODE;
  ifindex := -1;
  ifname := "";
  do_unload := false;
  filename := default_filename;
  progname := default_progname
|}.

(** [main] from the first [printf] on, that is, once
    [parse_cmdline_args] has filled [cfg]. *)
Definition main_cfg (cfg : config) : M Z :=
  printf (line "filename:%s size:%ld progname:%s")
         [AStr (filename cfg); AInt sizeof_filename; AStr (progname cfg)] ;;
  if ifindex cfg =? -1 then
    eprintf (line "ERR: required option --dev missing") [] ;;
    usage ;;
    ret EXIT_FAIL_OPTION
  else if do_unload cfg then
    xdp_unload (ifindex cfg) (xdp_flags cfg)
  else
    bpf_obj <- load_bpf_object_file (filename cfg) ;;
    match bpf_obj with
    | None =>
        eprintf (line "ERR: loading file: %s") [AStr (filename cfg)] ;;
        ret EXIT_FAIL_BPF
    | Some obj =>
        printf (line "XXX: bpf_object__name:%s") [AStr (bpf_object__name obj)] ;;
        print_avail_progs obj ;;
        bpf_prog <- bpf_object__find_program_by_title obj (progname cfg) ;;
        match bpf_prog with
        | None =>
            eprintf (line "ERR: finding progname: %s") [AStr (progname cfg)] ;;
            ret EXIT_FAIL_BPF
        | Some prog =>
            let fd := bpf_program__fd prog in
            if fd <=? 0 then
              eprintf (line "ERR: bpf_program__fd failed") [] ;;
              ret EXIT_FAIL_BPF
            else
              err <- xdp_load cfg fd ;;
              if negb (err =? 0) then ret err
              else
                r <- bpf_obj_get_info_by_fd fd ;;
                let (err', info) := r in
                if negb (err' =? 0) then
                  eprintf (line "ERR: can't get prog info - %s")
                          [AStrerrorErrno] ;;
                  ret err'
                else
                  printf (line "Success: Loading XDP prog name:%s(id:%d) on device:%s(ifindex:%d)")
                         [AStr (info_name info); AInt (info_id info);
                          AStr (ifname cfg); AInt (ifindex cfg)] ;;
                  ret EXIT_OK
        end
    end.

End Loader.

(** ** Mode resolution and the command line *)

(** The attachment mode of the specification: three hook variants and the
    replace policy. *)
Record AttachmentMode := {
  SkbGeneric : bool;
  DriverNative : bool;
  HardwareOffload : bool;
  ReplaceIfExists : bool
}.

(** The flag word that carries an [AttachmentMode] to the kernel: one
    [XDP_FLAGS_*_MODE] bit per hook variant, and
    [XDP_FLAGS_UPDATE_IF_NOEXIST] exactly when replacing is refused. *)
Definition mode_bits (m : AttachmentMode) : Z :=
  Z.lor (if ReplaceIfExists m then 0 else XDP_FLAGS_UPDATE_IF_NOEXIST)
    (Z.lor (if SkbGeneric m then XDP_FLAGS_SKB_MODE else 0)
       (Z.lor (if DriverNative m then XDP_FLAGS_DRV_MODE else 0)
              (if HardwareOffload m then XDP_FLAGS_HW_MODE else 0))).

Record mode_flags := {
  skbMode : bool;
  nativeMode : bool;
  autoMode : bool;
  force : bool
}.

Inductive config_error := ConfigError (msg : string).

(** Modelled from the spec: the mode resolution done inside
    [parse_cmdline_args], whose source is missing. Section 4.1:
    [skbMode] and [nativeMode] together are
    [ConfigError "conflicting mode flags"]; [autoMode] combined with either
    is a [ConfigError] (no separate text is given for it); with none of the
    three the mode is [DriverNative]; [autoMode] alone sets no mode bit;
    [force] maps to [ReplaceIfExists]. *)
Definition resolve (f : mode_flags) : config_error + AttachmentMode :=
  let mode skb drv :=
    {| SkbGeneric := skb; DriverNative := drv; HardwareOffload := false;
       ReplaceIfExists := force f |} in
  if skbMode f && nativeMode f then
    inl (ConfigError "conflicting mode flags")
  else if autoMode f && (skbMode f || nativeMode f) then
    inl (ConfigError "conflicting mode flags")
  else if skbMode f then inr (mode true false)
  else if nativeMode f then inr (mode false true)
  else if autoMode f then inr (mode false false)
  else inr (mode false true).

(** What the operator asks for on the command line, the interface name
    being already resolved to its index. *)
Record cmdline := {
  cl_dev : option (string * Z);
  cl_flags : mode_flags;
  cl_unload : bool;
  cl_filename : option string;
  cl_progname : option string
}.

Section Main.
Context {defs : common_user}.

(** Modelled from the spec: [parse_cmdline_args], whose source is
    missing. Sections 6 and 7: it fills the configuration record from
    the operator's input before any other component runs; a
    [ConfigError] is fatal and leaves the process with the option
    failure status before the kernel is touched. The result is the exit
    status in that case, the filled configuration otherwise. *)
Definition parse_cmdline_args (a : cmdline) (cfg : config) : Z + config :=
  match resolve (cl_flags a) with
  | inl _ => inl EXIT_FAIL_OPTION
  | inr m =>
      inr {| xdp_flags := mode_bits m;
             ifindex := match cl_dev a with Some d => snd d | None => ifindex cfg end;
             ifname := match cl_dev a with Some d => fst d | None => ifname cfg end;
             do_unload := cl_unload a || do_unload cfg;
             filename := match cl_filename a with Some s => s | None => filename cfg end;
             progname := match cl_progname a with Some s => s | None => progname cfg end |}
  end.

Definition main (a : cmdline) : M Z :=
  match parse_cmdline_args a initial_cfg with
  | inl status => ret status
  | inr cfg => main_cfg cfg
  end.

End Main.

(** ** Reading a trace *)

Inductive operation := OpLoad | OpSelect | OpAttach | OpDetach | OpInfo.

(** The operation an event stands for: a link call without a program
    ([fd = -1]) is a detach. *)
Definition operation_of (e : event) : option operation :=
  match e with
  | Call_prog_load _ _ => Some OpLoad
  | Call_find _ => Some OpSelect
  | Call_set_link _ fd _ => Some (if fd =? -1 then OpDetach else OpAttach)
  | Call_get_info _ => Some OpInfo
  | _ => None
  end.

Fixpoint operations (t : list event) : list operation :=
  match t with
  | [] => []
  | e :: t' =>
      match operation_of e with
      | Some o => o :: operations t'
      | None => operations t'
      end
  end.

Definition is_set_link (e : event) : bool :=
  match e with Call_set_link _ _ _ => true | _ => false end.

(** The calls of the kernel attachment primitive in a trace. *)
Definition link_calls (t : list event) : list event := filter is_set_link t.

(** The entry-point names printed by [print_avail_progs]. *)
Definition listed_title (e : event) : option string :=
  match e with
  | Out fmt [AStr s] => if String.eqb fmt (line " %s") then Some s else None
  | _ => None
  end.

Fixpoint listed_titles (t : list event) : list string :=
  match t with
  | [] => []
  | e :: t' =>
      match listed_title e with
      | Some s => s :: listed_titles t'
      | None => listed_titles t'
      end
  end.

(** The titles of the XDP programs of an object, in the object's order. *)
Definition xdp_titles (o : bpf_object) : list string :=
  map bpf_program__title (filter bpf_program__is_xdp (programs o)).

(** ** Pieces of [main] named for the statements below *)

(** The line [print_avail_progs] writes for one program title. *)
Definition avail_line (s : string) : event := Out (line " %s") [AStr s].

(** The first line [main] writes after the command line is parsed. *)
Definition header_line {defs : common_user} (cfg : config) : event :=
  Out (line "filename:%s size:%ld progname:%s")
      [AStr (filename cfg); AInt sizeof_filename; AStr (progname cfg)].

(** The rest of [main] once [bpf_object__find_program_by_title] has
    returned the program [prog]. *)
Definition after_select {defs : common_user} (cfg : config) (prog : bpf_program)
  : M Z :=
  let fd := bpf_program__fd prog in
  if fd <=? 0 then
    eprintf (line "ERR: bpf_program__fd failed") [] ;;
    ret EXIT_FAIL_BPF
  else
    err <- xdp_load cfg fd ;;
    if negb (err =? 0) then ret err
    else
      r <- bpf_obj_get_info_by_fd fd ;;
      let (err', info) := r in
      if negb (err' =? 0) then
        eprintf (line "ERR: can't get prog info - %s") [AStrerrorErrno] ;;
        ret err'
      else
        printf (line "Success: Loading XDP prog name:%s(id:%d) on device:%s(ifindex:%d)")
               [AStr (info_name info); AInt (info_id info);
                AStr (ifname cfg); AInt (ifindex cfg)] ;;
        ret EXIT_OK.

(** The lines a trace sends to stderr. *)
Definition is_err (e : event) : bool :=
  match e with Err _ _ => true | _ => false end.

Definition stderr_lines (t : list event) : list event := filter is_err t.

(** The confirmation line [main] writes at the end of a successful run. *)
Definition success_line (cfg : config) (info : bpf_prog_info) : event :=
  Out (line "Success: Loading XDP prog name:%s(id:%d) on device:%s(ifindex:%d)")
      [AStr (info_name info); AInt (info_id info);
       AStr (ifname cfg); AInt (ifindex cfg)].

(** The error line of [xdp_load] for the answer [err] of the link call. *)
Definition attach_error_line (cfg : config) (err : Z) : event :=
  Err (line "ERR: dev:%s link set xdp fd failed (%d): %s")
      [AStr (ifname cfg); AInt (- err); AStrerror (- err)].

(** The error line of [xdp_unload] for the answer [err] of the link call. *)
Definition detach_error_line (err : Z) : event :=
  Err (line "ERR: link set xdp unload failed (err=%d):%s")
      [AInt err; AStrerror (- err)].

(** The events of a run up to and including the selection: what [main]
    has written and called once [bpf_object__find_program_by_title] has
    answered for the loaded object [obj]. *)
Definition selected_prefix {defs : common_user} (cfg : config) (obj : bpf_object)
  : list event :=
  header_line cfg
  :: Call_prog_load BPF_PROG_TYPE_XDP (filename cfg)
  :: Out (line "XXX: bpf_object__name:%s") [AStr (bpf_object__name obj)]
  :: map avail_line (xdp_titles obj)
  ++ [Call_find (progname cfg)].

(** ** Sample data *)

Module Sample.
#[local] Instance defs : common_user := {|
  EXIT_OK := 0;
  EXIT_FAIL_OPTION := 2;
  EXIT_FAIL_XDP := 30;
  EXIT_FAIL_BPF := 40;
  sizeof_filename := 512
|}.

Definition xdp_pass : bpf_program :=
  {| section_name := "xdp_pass"; prog_type := BPF_PROG_TYPE_XDP; prog_fd := 7 |}.
Definition xdp_drop : bpf_program :=
  {| section_name := "xdp_drop"; prog_type := BPF_PROG_TYPE_XDP; prog_fd := 8 |}.
Definition classifier : bpf_program :=
  {| section_name := "classifier"; prog_type := BPF_PROG_TYPE_SCHED_CLS; prog_fd := 9 |}.
Definition unloaded : bpf_program :=
  {| section_name := "xdp_pass"; prog_type := BPF_PROG_TYPE_XDP; prog_fd := 0 |}.

Definition bundle : bpf_object :=
  {| object_name := "xdp_prog_kern"; programs := [xdp_pass; classifier; xdp_drop] |}.
Definition bundle_unloaded : bpf_object :=
  {| object_name := "xdp_prog_kern"; programs := [unloaded] |}.

Definition cfg : config :=
  {| xdp_flags := 5; ifindex := 3; ifname := "eth0"; do_unload := false;
     filename := "xdp_prog_kern.o"; progname := "xdp_pass" |}.

(** A kernel that loads [o], answers [link] to every link call and
    [info] to every info query. *)
Definition kernel_of (o : bpf_object) (link info : Z) : kernel :=
  {| k_prog_load := fun _ _ => (0, Some o);
     k_set_link := fun _ _ _ => link;
     k_get_info := fun _ => (info, {| info_name := "xdp_pass"; info_id := 42 |}) |}.
End Sample.

(** Further kernels and configurations for concrete runs. *)
Module Scenario.
(** A kernel whose loader fails with [err] and hands back no object. *)
Definition kernel_load_fails (err : Z) : kernel :=
  {| k_prog_load := fun _ _ => (err, None);
     k_set_link := fun _ _ _ => 0;
     k_get_info := fun _ => (0, {| info_name := ""; info_id := 0 |}) |}.

(** The sample configuration with [--unload]. *)
Definition cfg_unload : config :=
  {| xdp_flags := 5; ifindex := 3; ifname := "eth0"; do_unload := true;
     filename := "xdp_prog_kern.o"; progname := "xdp_pass" |}.


(** A bundle in which two programs carry the same title. *)
Definition twin_a : bpf_program :=
  {| section_name := "xdp_pass"; prog_type := BPF_PROG_TYPE_XDP; prog_fd := 11 |}.
Definition twin_b : bpf_program :=
  {| section_name := "xdp_pass"; prog_type := BPF_PROG_TYPE_XDP; prog_fd := 12 |}.
Definition bundle_twins : bpf_object :=
  {| object_name := "twins"; programs := [Sample.xdp_drop; twin_a; twin_b] |}.
End Scenario.

Arguments line : simpl never.

(** ** Running the functions of the loader *)

Lemma operations_app (t1 t2 : list event) :
  operations (t1 ++ t2) = operations t1 ++ operations t2.
Proof.
  induction t1 as [| e t1 IH]; simpl; [reflexivity |].
  destruct (operation_of e); simpl; now rewrite IH.
Qed.

Lemma listed_titles_app (t1 t2 : list event) :
  listed_titles (t1 ++ t2) = listed_titles t1 ++ listed_titles t2.
Proof.
  induction t1 as [| e t1 IH]; simpl; [reflexivity |].
  destruct (listed_title e); simpl; now rewrite IH.
Qed.

Lemma link_calls_app (t1 t2 : list event) :
  link_calls (t1 ++ t2) = link_calls t1 ++ link_calls t2.
Proof. apply filter_app. Qed.

Lemma operations_avail (l : list string) : operations (map avail_line l) = [].
Proof. induction l; simpl; auto. Qed.

Lemma link_calls_avail (l : list string) : link_calls (map avail_line l) = [].
Proof. induction l; simpl; auto. Qed.

Lemma listed_titles_avail (l : list string) :
  listed_titles (map avail_line l) = l.
Proof.
  induction l as [| s l IH]; [reflexivity |].
  cbn [map listed_titles avail_line listed_title].
  rewrite String.eqb_refl. now rewrite IH.
Qed.

(** Traces are compared with their appends re-associated to the right. *)
Ltac list_norm :=
  repeat first
    [ rewrite <- app_assoc
    | rewrite <- app_comm_cons
    | progress cbn [app fst snd] ].

Lemma link_calls_cons (e : event) (t : list event) :
  link_calls (e :: t) = if is_set_link e then e :: link_calls t else link_calls t.
Proof. reflexivity. Qed.

Lemma link_calls_nil : link_calls [] = [].
Proof. reflexivity. Qed.

(** Push [operations] / [link_calls] through an explicit trace. *)
Ltac ops_norm :=
  repeat first
    [ rewrite operations_app
    | rewrite operations_avail
    | progress cbn [operations operation_of header_line avail_line app fst] ].

Ltac links_norm :=
  repeat first
    [ rewrite link_calls_app
    | rewrite link_calls_avail
    | rewrite link_calls_cons
    | rewrite link_calls_nil
    | progress cbn [is_set_link header_line avail_line app fst] ].

Section Runs.
Context {defs : common_user}.

(** The loop of [print_avail_progs] writes one line per XDP program of
    the object, in order, and nothing else. *)
Lemma print_avail_progs_run (obj : bpf_object) (k : kernel) :
  print_avail_progs obj k = (map avail_line (xdp_titles obj), tt).
Proof.
  unfold print_avail_progs, xdp_titles.
  induction (programs obj) as [| pos rest IH]; [reflexivity |].
  simpl. unfold bind at 1. rewrite IH.
  destruct (bpf_program__is_xdp pos); reflexivity.
Qed.

Lemma load_bpf_object_file_run (file : string) (k : kernel) :
  load_bpf_object_file file k =
  let (err, obj) := k_prog_load k BPF_PROG_TYPE_XDP file in
  if negb (err =? 0)
  then ([Call_prog_load BPF_PROG_TYPE_XDP file;
         Err (line "ERR: loading BPF-OBJ file(%s) (%d): %s")
             [AStr file; AInt err; AStrerror (- err)]], None)
  else ([Call_prog_load BPF_PROG_TYPE_XDP file], obj).
Proof.
  unfold load_bpf_object_file, bind, bpf_prog_load_xattr.
  destruct (k_prog_load k BPF_PROG_TYPE_XDP file) as [err obj].
  destruct (negb (err =? 0)); reflexivity.
Qed.

Lemma xdp_load_hint_run (e : Z) (k : kernel) :
  xdp_load_hint e k =
  (if e =? EBUSY then
     [Err (line "Hint: XDP already loaded on device use --force to swap/replace") []]
   else if e =? EOPNOTSUPP then
     [Err (line "Hint: Native-XDP not supported use --skb-mode or --auto-mode") []]
   else [], tt).
Proof.
  unfold xdp_load_hint.
  destruct (e =? EBUSY); [reflexivity |].
  destruct (e =? EOPNOTSUPP); reflexivity.
Qed.

Lemma xdp_load_run (cfg : config) (fd : Z) (k : kernel) :
  xdp_load cfg fd k =
  let err := k_set_link k (ifindex cfg) fd (xdp_flags cfg) in
  if err <? 0 then
    (Call_set_link (ifindex cfg) fd (xdp_flags cfg)
     :: Err (line "ERR: dev:%s link set xdp fd failed (%d): %s")
            [AStr (ifname cfg); AInt (- err); AStrerror (- err)]
     :: fst (xdp_load_hint (- err) k), EXIT_FAIL_XDP)
  else ([Call_set_link (ifindex cfg) fd (xdp_flags cfg)], EXIT_OK).
Proof.
  unfold xdp_load, bind, bpf_set_link_xdp_fd. cbv zeta.
  destruct (k_set_link k (ifindex cfg) fd (xdp_flags cfg) <? 0); [| reflexivity].
  simpl. destruct (xdp_load_hint _ k) as [t []]. simpl.
  now rewrite app_nil_r.
Qed.

Lemma xdp_unload_run (idx flags : Z) (k : kernel) :
  xdp_unload idx flags k =
  let err := k_set_link k idx (-1) flags in
  if err <? 0 then
    ([Call_set_link idx (-1) flags;
      Err (line "ERR: link set xdp unload failed (err=%d):%s")
          [AInt err; AStrerror (- err)]], EXIT_FAIL_XDP)
  else ([Call_set_link idx (-1) flags], EXIT_OK).
Proof.
  unfold xdp_unload, bind, bpf_set_link_xdp_fd. cbv zeta.
  destruct (k_set_link k idx (-1) flags <? 0); reflexivity.
Qed.

(** The hint lines carry no operation and no link call. *)
Lemma xdp_load_hint_silent (e : Z) (k : kernel) :
  operations (fst (xdp_load_hint e k)) = [] /\
  link_calls (fst (xdp_load_hint e k)) = [].
Proof.
  rewrite xdp_load_hint_run. simpl.
  destruct (e =? EBUSY); [split; reflexivity |].
  destruct (e =? EOPNOTSUPP); split; reflexivity.
Qed.

(** [main] when the interface is missing. *)
Lemma main_cfg_no_dev (cfg : config) (k : kernel) :
  ifindex cfg = -1 ->
  main_cfg cfg k =
  ([header_line cfg; Err (line "ERR: required option --dev missing") []; Usage],
   EXIT_FAIL_OPTION).
Proof. intros H. unfold main_cfg. rewrite H. reflexivity. Qed.

(** [main] on the unload path. *)
Lemma main_cfg_unload (cfg : config) (k : kernel) :
  ifindex cfg <> -1 -> do_unload cfg = true ->
  main_cfg cfg k =
  (header_line cfg :: fst (xdp_unload (ifindex cfg) (xdp_flags cfg) k),
   snd (xdp_unload (ifindex cfg) (xdp_flags cfg) k)).
Proof.
  intros Hi Hu. unfold main_cfg.
  apply Z.eqb_neq in Hi. rewrite Hi, Hu.
  unfold bind at 1. simpl.
  destruct (xdp_unload _ _ k); reflexivity.
Qed.

(** [main] on the load path, up to the selection of the program. *)
Lemma main_cfg_load (cfg : config) (k : kernel) :
  ifindex cfg <> -1 -> do_unload cfg = false ->
  main_cfg cfg k =
  match load_bpf_object_file (filename cfg) k with
  | (tl, None) =>
      (header_line cfg :: tl
         ++ [Err (line "ERR: loading file: %s") [AStr (filename cfg)]],
       EXIT_FAIL_BPF)
  | (tl, Some obj) =>
      let pre :=
        header_line cfg :: tl
          ++ Out (line "XXX: bpf_object__name:%s") [AStr (bpf_object__name obj)]
          :: map avail_line (xdp_titles obj)
          ++ [Call_find (progname cfg)] in
      match find_program_by_title obj (progname cfg) with
      | None =>
          (pre ++ [Err (line "ERR: finding progname: %s") [AStr (progname cfg)]],
           EXIT_FAIL_BPF)
      | Some prog =>
          (pre ++ fst (after_select cfg prog k), snd (after_select cfg prog k))
      end
  end.
Proof.
  intros Hi Hu. unfold main_cfg.
  apply Z.eqb_neq in Hi. rewrite Hi, Hu.
  unfold bind at 1. simpl. unfold bind at 1.
  destruct (load_bpf_object_file (filename cfg) k) as [tl [obj |]].
  - unfold bind at 1. simpl. unfold bind at 1.
    rewrite print_avail_progs_run. unfold bind at 1.
    unfold bpf_object__find_program_by_title at 1.
    destruct (find_program_by_title obj (progname cfg)) as [prog |].
    + fold (after_select cfg prog).
      destruct (after_select cfg prog k) as [t r].
      cbn [fst snd]. unfold header_line. now list_norm.
    + unfold header_line. now list_norm.
  - reflexivity.
Qed.

End Runs.

Section Properties.
Context {defs : common_user}.

Lemma after_select_run (cfg : config) (prog : bpf_program) (k : kernel) :
  after_select cfg prog k =
  let fd := bpf_program__fd prog in
  if fd <=? 0 then ([Err (line "ERR: bpf_program__fd failed") []], EXIT_FAIL_BPF)
  else
    let (tl, err) := xdp_load cfg fd k in
    if negb (err =? 0) then (tl, err)
    else
      let (err', info) := k_get_info k fd in
      if negb (err' =? 0) then
        (tl ++ [Call_get_info fd;
                Err (line "ERR: can't get prog info - %s") [AStrerrorErrno]],
         err')
      else
        (tl ++ [Call_get_info fd;
                Out (line "Success: Loading XDP prog name:%s(id:%d) on device:%s(ifindex:%d)")
                    [AStr (info_name info); AInt (info_id info);
                     AStr (ifname cfg); AInt (ifindex cfg)]],
         EXIT_OK).
Proof.
  unfold after_select. cbv zeta.
  destruct (bpf_program__fd prog <=? 0); [reflexivity |].
  unfold bind at 1.
  destruct (xdp_load cfg (bpf_program__fd prog) k) as [tl err].
  destruct (negb (err =? 0)); [cbn; now rewrite app_nil_r |].
  unfold bind at 1, bpf_obj_get_info_by_fd at 1.
  destruct (k_get_info k (bpf_program__fd prog)) as [err' info].
  destruct (negb (err' =? 0)); reflexivity.
Qed.

(** The operations of a run of [main] from a parsed configuration. *)
Lemma main_cfg_operations (cfg : config) (k : kernel) :
  if ifindex cfg =? -1 then operations (trace (main_cfg cfg k)) = []
  else if do_unload cfg then operations (trace (main_cfg cfg k)) = [OpDetach]
  else exists n, (1 <= n)%nat /\
         operations (trace (main_cfg cfg k))
         = firstn n [OpLoad; OpSelect; OpAttach; OpInfo].
Proof.
  unfold trace.
  destruct (ifindex cfg =? -1) eqn:Hi.
  { apply Z.eqb_eq in Hi. now rewrite main_cfg_no_dev. }
  apply Z.eqb_neq in Hi.
  destruct (do_unload cfg) eqn:Hu.
  { rewrite main_cfg_unload, xdp_unload_run by assumption. cbv zeta.
    destruct (k_set_link k (ifindex cfg) (-1) (xdp_flags cfg) <? 0);
      reflexivity. }
  rewrite main_cfg_load, load_bpf_object_file_run by assumption.
  destruct (k_prog_load k BPF_PROG_TYPE_XDP (filename cfg)) as [e o].
  destruct (negb (e =? 0)); [exists 1%nat; split; [lia | reflexivity] |].
  destruct o as [obj |]; [| exists 1%nat; split; [lia | reflexivity]].
  cbv zeta.
  destruct (find_program_by_title obj (progname cfg)) as [prog |].
  2:{ exists 2%nat. split; [lia |]. now ops_norm. }
  rewrite after_select_run. cbv zeta.
  destruct (bpf_program__fd prog <=? 0) eqn:Hfd.
  { exists 2%nat. split; [lia |]. now ops_norm. }
  assert (Hne : (bpf_program__fd prog =? -1) = false)
    by (apply Z.eqb_neq; apply Z.leb_gt in Hfd; lia).
  rewrite xdp_load_run. cbv zeta.
  destruct (xdp_load_hint_silent
              (- k_set_link k (ifindex cfg) (bpf_program__fd prog) (xdp_flags cfg)) k)
    as [Hops _].
  destruct (k_set_link k (ifindex cfg) (bpf_program__fd prog) (xdp_flags cfg) <? 0).
  - destruct (negb (EXIT_FAIL_XDP =? 0)).
    + exists 3%nat. split; [lia |]. ops_norm. now rewrite Hne, Hops.
    + destruct (k_get_info k (bpf_program__fd prog)) as [e' info].
      exists 4%nat. split; [lia |].
      destruct (negb (e' =? 0)); ops_norm; now rewrite Hne, Hops.
  - destruct (negb (EXIT_OK =? 0)).
    + exists 3%nat. split; [lia |]. ops_norm. now rewrite Hne.
    + destruct (k_get_info k (bpf_program__fd prog)) as [e' info].
      exists 4%nat. split; [lia |].
      destruct (negb (e' =? 0)); ops_norm; now rewrite Hne.
Qed.

(** The link calls of a run of [main] on the load path: none, or the
    single attach of the selected program, whose descriptor is
    positive. *)
Lemma main_cfg_link_calls (cfg : config) (k : kernel) :
  ifindex cfg <> -1 -> do_unload cfg = false ->
  link_calls (trace (main_cfg cfg k)) = [] \/
  exists obj prog,
    snd (k_prog_load k BPF_PROG_TYPE_XDP (filename cfg)) = Some obj /\
    find_program_by_title obj (progname cfg) = Some prog /\
    0 < bpf_program__fd prog /\
    link_calls (trace (main_cfg cfg k))
    = [Call_set_link (ifindex cfg) (bpf_program__fd prog) (xdp_flags cfg)].
Proof.
  intros Hi Hu. unfold trace.
  rewrite main_cfg_load, load_bpf_object_file_run by assumption.
  destruct (k_prog_load k BPF_PROG_TYPE_XDP (filename cfg)) as [e o].
  destruct (negb (e =? 0)); [now left |].
  destruct o as [obj |]; [| now left].
  cbv zeta.
  destruct (find_program_by_title obj (progname cfg)) as [prog |] eqn:Hf.
  2:{ left. now links_norm. }
  rewrite after_select_run. cbv zeta.
  destruct (bpf_program__fd prog <=? 0) eqn:Hfd; [left; now links_norm |].
  apply Z.leb_gt in Hfd.
  right. exists obj, prog. repeat split; try assumption.
  rewrite xdp_load_run. cbv zeta.
  destruct (xdp_load_hint_silent
              (- k_set_link k (ifindex cfg) (bpf_program__fd prog) (xdp_flags cfg)) k)
    as [_ Hlc].
  destruct (k_set_link k (ifindex cfg) (bpf_program__fd prog) (xdp_flags cfg) <? 0).
  - destruct (negb (EXIT_FAIL_XDP =? 0)).
    + links_norm. now rewrite Hlc.
    + destruct (k_get_info k (bpf_program__fd prog)) as [e' info].
      destruct (negb (e' =? 0)); links_norm; now rewrite Hlc.
  - destruct (negb (EXIT_OK =? 0)); [now links_norm |].
    destruct (k_get_info k (bpf_program__fd prog)) as [e' info].
    destruct (negb (e' =? 0)); now links_norm.
Qed.

Lemma In_link_calls (e : event) (t : list event) :
  In e t -> is_set_link e = true -> In e (link_calls t).
Proof. intros Hin He. apply filter_In. now split. Qed.

End Properties.

(** ** Properties of the specification *)

Section Claims.
Context {defs : common_user}.

(** C1. Whenever [skbMode] and [nativeMode] are both set, whatever the
    other flags and the rest of the command line, mode resolution is
    [ConfigError "conflicting mode flags"], and the command leaves with
    the option failure status without a single operation: neither load
    nor attach (nor anything else) is reached. *)
Theorem C1_conflicting_mode_flags (a : cmdline) (k : kernel) :
  skbMode (cl_flags a) = true ->
  nativeMode (cl_flags a) = true ->
  resolve (cl_flags a) = inl (ConfigError "conflicting mode flags") /\
  main a k = ([], EXIT_FAIL_OPTION) /\
  operations (trace (main a k)) = [].
Proof.
  intros Hs Hn.
  assert (Hr : resolve (cl_flags a) = inl (ConfigError "conflicting mode flags"))
    by (unfold resolve; now rewrite Hs, Hn).
  assert (Hm : main a k = ([], EXIT_FAIL_OPTION))
    by (unfold main, parse_cmdline_args; now rewrite Hr).
  repeat split; try assumption. now rewrite Hm.
Qed.

(** C2, amended. When the attach succeeds (the link call does not
    return a negative value, and [EXIT_OK] is the zero status that lets
    [main] go on) and the info query then fails with a non-zero value
    [rc], [main] writes an [ERR:] line to stderr as the last thing it
    does, prints no success line, and returns [rc], which is not the
    success status. *)
Theorem C2_info_failure_is_fatal (cfg : config) (k : kernel)
    (obj : bpf_object) (prog : bpf_program) (rc : Z) (info : bpf_prog_info) :
  EXIT_OK = 0 ->
  ifindex cfg <> -1 ->
  do_unload cfg = false ->
  k_prog_load k BPF_PROG_TYPE_XDP (filename cfg) = (0, Some obj) ->
  find_program_by_title obj (progname cfg) = Some prog ->
  0 < bpf_program__fd prog ->
  0 <= k_set_link k (ifindex cfg) (bpf_program__fd prog) (xdp_flags cfg) ->
  k_get_info k (bpf_program__fd prog) = (rc, info) ->
  rc <> 0 ->
  main_cfg cfg k =
    (header_line cfg
     :: Call_prog_load BPF_PROG_TYPE_XDP (filename cfg)
     :: Out (line "XXX: bpf_object__name:%s") [AStr (bpf_object__name obj)]
     :: map avail_line (xdp_titles obj)
     ++ [Call_find (progname cfg);
         Call_set_link (ifindex cfg) (bpf_program__fd prog) (xdp_flags cfg);
         Call_get_info (bpf_program__fd prog);
         Err (line "ERR: can't get prog info - %s") [AStrerrorErrno]],
     rc) /\
  result (main_cfg cfg k) <> EXIT_OK.
Proof.
  intros Hok Hi Hu Hload Hfind Hfd Hlink Hinfo Hrc.
  assert (Hrun : main_cfg cfg k =
    (header_line cfg
     :: Call_prog_load BPF_PROG_TYPE_XDP (filename cfg)
     :: Out (line "XXX: bpf_object__name:%s") [AStr (bpf_object__name obj)]
     :: map avail_line (xdp_titles obj)
     ++ [Call_find (progname cfg);
         Call_set_link (ifindex cfg) (bpf_program__fd prog) (xdp_flags cfg);
         Call_get_info (bpf_program__fd prog);
         Err (line "ERR: can't get prog info - %s") [AStrerrorErrno]],
     rc)).
  { rewrite main_cfg_load, load_bpf_object_file_run, Hload by assumption.
    cbn [Z.eqb negb]. cbv zeta. rewrite Hfind, after_select_run. cbv zeta.
    rewrite (proj2 (Z.leb_gt _ _) Hfd), xdp_load_run. cbv zeta.
    rewrite (proj2 (Z.ltb_ge _ _) Hlink), Hok. cbn [Z.eqb negb].
    rewrite Hinfo, (proj2 (Z.eqb_neq rc 0) Hrc). cbn [negb].
    now list_norm. }
  split; [exact Hrun |].
  rewrite Hrun, Hok. exact Hrc.
Qed.

(** C4. With none of [skbMode], [nativeMode], [autoMode] set, the
    resolved mode is [DriverNative] alone; [ReplaceIfExists] is absent
    unless [force] asks for it; and without [force] the flag word is the
    one [main] starts from, [XDP_FLAGS_UPDATE_IF_NOEXIST |
    XDP_FLAGS_DRV_MODE]: the driver mode bit is set, the other mode bits
    are clear, and the bit that makes the kernel refuse to replace an
    existing attachment is set. *)
Theorem C4_default_mode (f : mode_flags) :
  skbMode f = false -> nativeMode f = false -> autoMode f = false ->
  exists m,
    resolve f = inr m /\
    DriverNative m = true /\ SkbGeneric m = false /\ HardwareOffload m = false /\
    ReplaceIfExists m = force f /\
    (force f = false ->
     ReplaceIfExists m = false /\ mode_bits m = xdp_flags initial_cfg) /\
    xdp_flags initial_cfg = Z.lor XDP_FLAGS_UPDATE_IF_NOEXIST XDP_FLAGS_DRV_MODE /\
    Z.land (xdp_flags initial_cfg) XDP_FLAGS_MODES = XDP_FLAGS_DRV_MODE /\
    Z.land (xdp_flags initial_cfg) XDP_FLAGS_UPDATE_IF_NOEXIST
    = XDP_FLAGS_UPDATE_IF_NOEXIST.
Proof.
  intros Hs Hn Ha. unfold resolve. rewrite Hs, Hn, Ha. cbn [andb orb].
  eexists. split; [reflexivity |].
  cbn [DriverNative SkbGeneric HardwareOffload ReplaceIfExists].
  do 4 (split; [reflexivity |]).
  split; [| repeat split].
  intros Hf. split; [exact Hf |]. unfold mode_bits.
  cbn [DriverNative SkbGeneric HardwareOffload ReplaceIfExists].
  rewrite Hf. reflexivity.
Qed.

(** C5. With [ifindex = -1], [main] writes the missing-option error and
    the usage text, returns the option failure status, and has made no
    call at all: in particular no link call, neither for detach nor for
    attach, whatever [do_unload] says. *)
Theorem C5_missing_interface (cfg : config) (k : kernel) :
  ifindex cfg = -1 ->
  main_cfg cfg k =
    ([header_line cfg; Err (line "ERR: required option --dev missing") []; Usage],
     EXIT_FAIL_OPTION) /\
  result (main_cfg cfg k) = EXIT_FAIL_OPTION /\
  link_calls (trace (main_cfg cfg k)) = [] /\
  operations (trace (main_cfg cfg k)) = [].
Proof.
  intros H. rewrite (main_cfg_no_dev cfg k H). repeat split.
Qed.

(** C6. When the link call of [xdp_load] fails with [err < 0], the
    error line is followed by the hint that [-err] selects: for [EBUSY]
    the advice to use [--force] to swap/replace, for [EOPNOTSUPP] the
    advice to use [--skb-mode] or [--auto-mode], and for any other value
    nothing. The status is the attachment failure in all three cases. *)
Theorem C6_hint_lookup (cfg : config) (fd : Z) (k : kernel) :
  let err := k_set_link k (ifindex cfg) fd (xdp_flags cfg) in
  let failure :=
    [Call_set_link (ifindex cfg) fd (xdp_flags cfg);
     Err (line "ERR: dev:%s link set xdp fd failed (%d): %s")
         [AStr (ifname cfg); AInt (- err); AStrerror (- err)]] in
  err < 0 ->
  (- err = EBUSY ->
   xdp_load cfg fd k =
     (failure ++
      [Err (line "Hint: XDP already loaded on device use --force to swap/replace") []],
      EXIT_FAIL_XDP)) /\
  (- err = EOPNOTSUPP ->
   xdp_load cfg fd k =
     (failure ++
      [Err (line "Hint: Native-XDP not supported use --skb-mode or --auto-mode") []],
      EXIT_FAIL_XDP)) /\
  (- err <> EBUSY -> - err <> EOPNOTSUPP ->
   xdp_load cfg fd k = (failure, EXIT_FAIL_XDP)).
Proof.
  intros err failure Hneg. subst failure.
  rewrite xdp_load_run. cbv zeta. fold err.
  rewrite (proj2 (Z.ltb_lt _ _) Hneg), xdp_load_hint_run. cbn [fst].
  repeat split.
  - intros ->. reflexivity.
  - intros ->. reflexivity.
  - intros H1 H2.
    now rewrite (proj2 (Z.eqb_neq _ _) H1), (proj2 (Z.eqb_neq _ _) H2).
Qed.

(** C7. [main] parses the command line (configuration and mode
    resolution) before anything else; if that fails no operation is
    performed. Otherwise, without an interface there is no operation;
    when unload is requested the only operation is the detach (no load,
    no select); and on the load path the operations are an initial
    segment, starting with the load, of load, select, attach, info
    query, in that order. *)
Theorem C7_operation_order (a : cmdline) (k : kernel) :
  match parse_cmdline_args a initial_cfg with
  | inl status => main a k = ([], status)
  | inr cfg =>
      main a k = main_cfg cfg k /\
      if ifindex cfg =? -1 then operations (trace (main a k)) = []
      else if do_unload cfg then operations (trace (main a k)) = [OpDetach]
      else exists n, (1 <= n)%nat /\
             operations (trace (main a k))
             = firstn n [OpLoad; OpSelect; OpAttach; OpInfo]
  end.
Proof.
  unfold main.
  destruct (parse_cmdline_args a initial_cfg) as [status | cfg];
    [reflexivity |].
  split; [reflexivity | apply main_cfg_operations].
Qed.

(** C8. [xdp_unload] and [xdp_load] make the same single link call on
    the interface and flag word they are given, [xdp_unload] with the
    descriptor [-1]; so for every configuration the detach is the attach
    with [-1] in place of the program, the kernel is asked the same
    question, and [main] hands [xdp_unload] the interface and the flag
    word of the very configuration it would hand to [xdp_load]. *)
Theorem C8_detach_is_attach_without_program (cfg : config) (fd : Z) (k : kernel) :
  link_calls (trace (xdp_load cfg fd k))
  = [Call_set_link (ifindex cfg) fd (xdp_flags cfg)] /\
  link_calls (trace (xdp_unload (ifindex cfg) (xdp_flags cfg) k))
  = [Call_set_link (ifindex cfg) (-1) (xdp_flags cfg)] /\
  link_calls (trace (xdp_unload (ifindex cfg) (xdp_flags cfg) k))
  = link_calls (trace (xdp_load cfg (-1) k)) /\
  (result (xdp_unload (ifindex cfg) (xdp_flags cfg) k) = EXIT_OK <->
   result (xdp_load cfg (-1) k) = EXIT_OK) /\
  ((ifindex cfg =? -1) = false -> do_unload cfg = true ->
   link_calls (trace (main_cfg cfg k))
   = [Call_set_link (ifindex cfg) (-1) (xdp_flags cfg)]).
Proof.
  assert (Hload : forall fd', link_calls (trace (xdp_load cfg fd' k))
                  = [Call_set_link (ifindex cfg) fd' (xdp_flags cfg)]).
  { intros fd'. unfold trace. rewrite xdp_load_run. cbv zeta.
    destruct (xdp_load_hint_silent
                (- k_set_link k (ifindex cfg) fd' (xdp_flags cfg)) k) as [_ Hlc].
    destruct (k_set_link k (ifindex cfg) fd' (xdp_flags cfg) <? 0);
      links_norm; [now rewrite Hlc | reflexivity]. }
  assert (Hunload : link_calls (trace (xdp_unload (ifindex cfg) (xdp_flags cfg) k))
                    = [Call_set_link (ifindex cfg) (-1) (xdp_flags cfg)]).
  { unfold trace. rewrite xdp_unload_run. cbv zeta.
    destruct (k_set_link k (ifindex cfg) (-1) (xdp_flags cfg) <? 0);
      reflexivity. }
  split; [apply Hload |]. split; [exact Hunload |].
  split; [now rewrite Hunload, Hload |].
  split.
  - unfold result. rewrite xdp_unload_run, xdp_load_run. cbv zeta.
    destruct (k_set_link k (ifindex cfg) (-1) (xdp_flags cfg) <? 0);
      reflexivity.
  - intros Hi Hu. apply Z.eqb_neq in Hi. unfold trace.
    rewrite main_cfg_unload by assumption. links_norm.
    exact Hunload.
Qed.

(** C9. When the bundle is loaded and no program carries the requested
    title, [main] has written, before the error line, one line for each
    XDP program of the bundle, in the bundle's order: the listed titles
    are exactly the titles of the XDP programs, every XDP program of the
    bundle has its line in the output, and the last line written is the
    error line that names the requested program. The status is the
    load/selection failure. *)
Theorem C9_selection_failure_lists_candidates (cfg : config) (k : kernel)
    (obj : bpf_object) :
  ifindex cfg <> -1 ->
  do_unload cfg = false ->
  k_prog_load k BPF_PROG_TYPE_XDP (filename cfg) = (0, Some obj) ->
  find_program_by_title obj (progname cfg) = None ->
  main_cfg cfg k =
    (header_line cfg
     :: Call_prog_load BPF_PROG_TYPE_XDP (filename cfg)
     :: Out (line "XXX: bpf_object__name:%s") [AStr (bpf_object__name obj)]
     :: map avail_line (xdp_titles obj)
     ++ [Call_find (progname cfg);
         Err (line "ERR: finding progname: %s") [AStr (progname cfg)]],
     EXIT_FAIL_BPF) /\
  listed_titles (trace (main_cfg cfg k)) = xdp_titles obj /\
  (forall p, In p (programs obj) -> bpf_program__is_xdp p = true ->
     In (Out (line " %s") [AStr (bpf_program__title p)]) (trace (main_cfg cfg k))) /\
  (forall s, In s (listed_titles (trace (main_cfg cfg k))) ->
     exists p, In p (programs obj) /\ bpf_program__is_xdp p = true /\
               bpf_program__title p = s).
Proof.
  intros Hi Hu Hload Hfind.
  assert (Hrun : main_cfg cfg k =
    (header_line cfg
     :: Call_prog_load BPF_PROG_TYPE_XDP (filename cfg)
     :: Out (line "XXX: bpf_object__name:%s") [AStr (bpf_object__name obj)]
     :: map avail_line (xdp_titles obj)
     ++ [Call_find (progname cfg);
         Err (line "ERR: finding progname: %s") [AStr (progname cfg)]],
     EXIT_FAIL_BPF)).
  { rewrite main_cfg_load, load_bpf_object_file_run, Hload by assumption.
    cbn [Z.eqb negb]. cbv zeta. rewrite Hfind. now list_norm. }
  assert (Hlisted : listed_titles (trace (main_cfg cfg k)) = xdp_titles obj).
  { rewrite Hrun. unfold trace. cbn [fst].
    change (header_line cfg :: ?l) with ([header_line cfg] ++ l).
    rewrite listed_titles_app.
    change (Call_prog_load ?t ?f :: ?x :: ?l) with ([Call_prog_load t f; x] ++ l).
    rewrite !listed_titles_app, listed_titles_avail.
    cbn. now rewrite app_nil_r. }
  split; [exact Hrun |]. split; [exact Hlisted |]. split.
  - intros p Hin Hx. rewrite Hrun. unfold trace. cbn [fst].
    do 3 right. apply in_or_app. left.
    apply (in_map avail_line), in_map. apply filter_In. now split.
  - intros s Hs. rewrite Hlisted in Hs. unfold xdp_titles in Hs.
    apply in_map_iff in Hs. destruct Hs as [p [Ht Hp]].
    apply filter_In in Hp. destruct Hp as [Hin Hx].
    exists p. now repeat split.
Qed.

(** C10. On the load path every link call [main] makes carries a
    strictly positive descriptor; and when the selected program's
    descriptor is not strictly positive, [main] returns the
    load/selection failure status without any link call. *)
Theorem C10_attach_needs_valid_fd (cfg : config) (k : kernel) :
  do_unload cfg = false ->
  (forall idx fd flags,
     In (Call_set_link idx fd flags) (trace (main_cfg cfg k)) -> 0 < fd) /\
  (forall obj prog,
     ifindex cfg <> -1 ->
     k_prog_load k BPF_PROG_TYPE_XDP (filename cfg) = (0, Some obj) ->
     find_program_by_title obj (progname cfg) = Some prog ->
     bpf_program__fd prog <= 0 ->
     result (main_cfg cfg k) = EXIT_FAIL_BPF /\
     link_calls (trace (main_cfg cfg k)) = [] /\
     last (trace (main_cfg cfg k)) Usage
     = Err (line "ERR: bpf_program__fd failed") []).
Proof.
  intros Hu. split.
  - intros idx fd flags Hin.
    apply In_link_calls in Hin; [| reflexivity].
    destruct (Z.eq_dec (ifindex cfg) (-1)) as [Hi | Hi].
    + unfold trace in Hin. rewrite (main_cfg_no_dev cfg k Hi) in Hin.
      destruct Hin.
    + destruct (main_cfg_link_calls cfg k Hi Hu)
        as [Hnone | (obj & prog & _ & _ & Hpos & Hone)].
      * rewrite Hnone in Hin. destruct Hin.
      * rewrite Hone in Hin. destruct Hin as [Heq | []].
        injection Heq as _ <- _. exact Hpos.
  - intros obj prog Hi Hload Hfind Hfd.
    unfold result, trace.
    rewrite main_cfg_load, load_bpf_object_file_run, Hload by assumption.
    cbn [Z.eqb negb]. cbv zeta. rewrite Hfind, after_select_run. cbv zeta.
    rewrite (proj2 (Z.leb_le _ _) Hfd). cbn [fst snd].
    split; [reflexivity |]. split; [now links_norm |].
    apply last_last.
Qed.

End Claims.

(** ** The selection by title, on a loaded bundle *)


(** ** Concrete runs *)

(** C2 as stated fails: on the sample bundle the attach succeeds (the
    link call answers 0), the info query answers -1, and [main] writes
    the [ERR:] line and returns -1, not the success status. *)
Lemma C2_info_failure_escalates :
  let k := Sample.kernel_of Sample.bundle 0 (-1) in
  let r := main_cfg (defs := Sample.defs) Sample.cfg k in
  In (Call_set_link 3 7 5) (trace r) /\
  k_set_link k 3 7 5 = 0 /\
  In (Call_get_info 7) (trace r) /\
  fst (k_get_info k 7) = -1 /\
  last (trace r) Usage = Err (line "ERR: can't get prog info - %s") [AStrerrorErrno] /\
  result r = -1 /\
  result r <> @EXIT_OK Sample.defs.
Proof.
  cbv zeta. repeat split; try (vm_compute; reflexivity).
  - vm_compute. tauto.
  - vm_compute. tauto.
  - vm_compute. discriminate.
Qed.

Lemma C1_conflicting_mode_flags_witness :
  let a := {| cl_dev := Some ("eth0", 3);
              cl_flags := {| skbMode := true; nativeMode := true;
                             autoMode := false; force := true |};
              cl_unload := false; cl_filename := None; cl_progname := None |} in
  let k := Sample.kernel_of Sample.bundle 0 0 in
  skbMode (cl_flags a) = true /\
  nativeMode (cl_flags a) = true /\
  resolve (cl_flags a) = inl (ConfigError "conflicting mode flags") /\
  main (defs := Sample.defs) a k = ([], 2) /\
  operations (trace (main (defs := Sample.defs) a k)) = [].
Proof.
  cbv zeta. split; [reflexivity |]. split; [reflexivity |].
  apply (@C1_conflicting_mode_flags Sample.defs); reflexivity.
Defined.

Lemma C2_info_failure_is_fatal_witness :
  let k := Sample.kernel_of Sample.bundle 0 (-1) in
  result (main_cfg (defs := Sample.defs) Sample.cfg k) <> 0.
Proof.
  cbv zeta.
  refine (proj2 (@C2_info_failure_is_fatal Sample.defs Sample.cfg
                   (Sample.kernel_of Sample.bundle 0 (-1))
                   Sample.bundle Sample.xdp_pass (-1)
                   {| info_name := "xdp_pass"; info_id := 42 |}
                   _ _ _ _ _ _ _ _ _)).
  - reflexivity.
  - simpl. lia.
  - reflexivity.
  - reflexivity.
  - reflexivity.
  - simpl. lia.
  - simpl. lia.
  - reflexivity.
  - lia.
Defined.

Lemma C4_default_mode_witness :
  exists m,
    resolve {| skbMode := false; nativeMode := false; autoMode := false;
               force := false |} = inr m /\
    DriverNative m = true /\ SkbGeneric m = false /\ HardwareOffload m = false /\
    ReplaceIfExists m = false /\
    mode_bits m = 5.
Proof.
  destruct (C4_default_mode
              {| skbMode := false; nativeMode := false; autoMode := false;
                 force := false |} eq_refl eq_refl eq_refl)
    as (m & Hr & Hd & Hs & Hh & Hf & Hbits & _).
  exists m. destruct (Hbits eq_refl) as [_ Hb].
  repeat split; assumption.
Defined.

Lemma C5_missing_interface_witness :
  let cfg := {| xdp_flags := 5; ifindex := -1; ifname := ""; do_unload := true;
                filename := "xdp_prog_kern.o"; progname := "xdp_pass" |} in
  let k := Sample.kernel_of Sample.bundle 0 0 in
  ifindex cfg = -1 /\
  result (main_cfg (defs := Sample.defs) cfg k) = 2 /\
  link_calls (trace (main_cfg (defs := Sample.defs) cfg k)) = [].
Proof.
  cbv zeta. split; [reflexivity |].
  destruct (@C5_missing_interface Sample.defs
              {| xdp_flags := 5; ifindex := -1; ifname := ""; do_unload := true;
                 filename := "xdp_prog_kern.o"; progname := "xdp_pass" |}
              (Sample.kernel_of Sample.bundle 0 0) eq_refl)
    as (_ & Hr & Hl & _).
  split; assumption.
Defined.

Lemma C6_hint_lookup_witness :
  xdp_load (defs := Sample.defs) Sample.cfg 7 (Sample.kernel_of Sample.bundle (-16) 0)
  = ([Call_set_link 3 7 5;
      Err (line "ERR: dev:%s link set xdp fd failed (%d): %s")
          [AStr "eth0"; AInt 16; AStrerror 16];
      Err (line "Hint: XDP already loaded on device use --force to swap/replace") []],
     30) /\
  xdp_load (defs := Sample.defs) Sample.cfg 7 (Sample.kernel_of Sample.bundle (-95) 0)
  = ([Call_set_link 3 7 5;
      Err (line "ERR: dev:%s link set xdp fd failed (%d): %s")
          [AStr "eth0"; AInt 95; AStrerror 95];
      Err (line "Hint: Native-XDP not supported use --skb-mode or --auto-mode") []],
     30) /\
  xdp_load (defs := Sample.defs) Sample.cfg 7 (Sample.kernel_of Sample.bundle (-22) 0)
  = ([Call_set_link 3 7 5;
      Err (line "ERR: dev:%s link set xdp fd failed (%d): %s")
          [AStr "eth0"; AInt 22; AStrerror 22]],
     30).
Proof.
  split; [| split].
  - apply (@C6_hint_lookup Sample.defs Sample.cfg 7
             (Sample.kernel_of Sample.bundle (-16) 0)); [simpl; lia | reflexivity].
  - apply (@C6_hint_lookup Sample.defs Sample.cfg 7
             (Sample.kernel_of Sample.bundle (-95) 0)); [simpl; lia | reflexivity].
  - apply (@C6_hint_lookup Sample.defs Sample.cfg 7
             (Sample.kernel_of Sample.bundle (-22) 0));
      [simpl; lia | discriminate | discriminate].
Defined.

Lemma C9_selection_failure_lists_candidates_witness :
  let cfg := {| xdp_flags := 5; ifindex := 3; ifname := "eth0";
                do_unload := false; filename := "xdp_prog_kern.o";
                progname := "missing_one" |} in
  let k := Sample.kernel_of Sample.bundle 0 0 in
  find_program_by_title Sample.bundle (progname cfg) = None /\
  listed_titles (trace (main_cfg (defs := Sample.defs) cfg k))
  = ["xdp_pass"; "xdp_drop"].
Proof.
  cbv zeta. split; [reflexivity |].
  refine (proj1 (proj2 (@C9_selection_failure_lists_candidates Sample.defs
            {| xdp_flags := 5; ifindex := 3; ifname := "eth0";
               do_unload := false; filename := "xdp_prog_kern.o";
               progname := "missing_one" |}
            (Sample.kernel_of Sample.bundle 0 0) Sample.bundle _ _ _ _))).
  - simpl. lia.
  - reflexivity.
  - reflexivity.
  - reflexivity.
Defined.

Lemma C10_attach_needs_valid_fd_witness :
  let k := Sample.kernel_of Sample.bundle_unloaded 0 0 in
  do_unload Sample.cfg = false /\
  bpf_program__fd Sample.unloaded <= 0 /\
  result (main_cfg (defs := Sample.defs) Sample.cfg k) = 40 /\
  link_calls (trace (main_cfg (defs := Sample.defs) Sample.cfg k)) = [].
Proof.
  cbv zeta. split; [reflexivity |]. split; [simpl; lia |].
  destruct (@C10_attach_needs_valid_fd Sample.defs Sample.cfg
              (Sample.kernel_of Sample.bundle_unloaded 0 0) eq_refl)
    as [_ Hexit].
  destruct (Hexit Sample.bundle_unloaded Sample.unloaded) as (Hr & Hl & _).
  - simpl. lia.
  - reflexivity.
  - reflexivity.
  - simpl. lia.
  - split; assumption.
Defined.

(** ** The whole decision tree of [main] *)

(** Split a run of [main] into its cases, one per [return] of the source;
    the equations of the tests taken are left in the context. *)
Ltac main_cases cfg k :=
  unfold trace, result;
  let Hi := fresh "Hi" in
  destruct (Z.eq_dec (ifindex cfg) (-1)) as [Hi | Hi];
  [ rewrite (main_cfg_no_dev cfg k Hi)
  | let Hu := fresh "Hu" in
    destruct (do_unload cfg) eqn:Hu;
    [ rewrite (main_cfg_unload cfg k Hi Hu), xdp_unload_run; cbv zeta;
      let Hl := fresh "Hl" in
      destruct (k_set_link k (ifindex cfg) (-1) (xdp_flags cfg) <? 0) eqn:Hl
    | rewrite (main_cfg_load cfg k Hi Hu), load_bpf_object_file_run;
      let e := fresh "e" in let o := fresh "o" in
      let Hload := fresh "Hload" in let He := fresh "He" in
      destruct (k_prog_load k BPF_PROG_TYPE_XDP (filename cfg)) as [e o] eqn:Hload;
      destruct (e =? 0) eqn:He; cbn [negb];
      [ let obj := fresh "obj" in
        destruct o as [obj |];
        [ cbv zeta;
          let prog := fresh "prog" in let Hfind := fresh "Hfind" in
          destruct (find_program_by_title obj (progname cfg)) as [prog |] eqn:Hfind;
          [ rewrite after_select_run; cbv zeta;
            let Hfd := fresh "Hfd" in
            destruct (bpf_program__fd prog <=? 0) eqn:Hfd;
            [ | rewrite xdp_load_run; cbv zeta;
                let Hl := fresh "Hl" in let Hx := fresh "Hx" in
                destruct (k_set_link k (ifindex cfg) (bpf_program__fd prog)
                            (xdp_flags cfg) <? 0) eqn:Hl;
                [ destruct (EXIT_FAIL_XDP =? 0) eqn:Hx
                | destruct (EXIT_OK =? 0) eqn:Hx ];
                cbn [negb];
                lazymatch goal with
                | |- context [k_get_info k (bpf_program__fd prog)] =>
                    let e' := fresh "e'" in let info := fresh "info" in
                    let Hinfo := fresh "Hinfo" in let He' := fresh "He'" in
                    destruct (k_get_info k (bpf_program__fd prog))
                      as [e' info] eqn:Hinfo;
                    destruct (e' =? 0) eqn:He'; cbn [negb]
                | |- _ => idtac
                end ]
          | ]
        | ]
      | ] ] ];
  cbn [fst snd].

(** Turn the boolean tests left by [main_cases] into arithmetic. *)
Ltac tests_to_Z :=
  repeat match goal with
  | H : (_ <? _) = true |- _ => apply Z.ltb_lt in H
  | H : (_ <? _) = false |- _ => apply Z.ltb_ge in H
  | H : (_ <=? _) = true |- _ => apply Z.leb_le in H
  | H : (_ <=? _) = false |- _ => apply Z.leb_gt in H
  | H : (_ =? _) = true |- _ => apply Z.eqb_eq in H
  | H : (_ =? _) = false |- _ => apply Z.eqb_neq in H
  end.

(** Decide membership of an event in an explicit trace. *)
Ltac in_trace H :=
  unfold header_line, success_line in H;
  repeat first
    [ rewrite in_app_iff in H
    | rewrite xdp_load_hint_run in H
    | progress cbn [In fst] in H ].

Lemma not_in_avail (e : event) (l : list string) :
  In e (map avail_line l) -> exists s, e = Out (line " %s") [AStr s].
Proof.
  intros H. apply in_map_iff in H. destruct H as (s & <- & _). now exists s.
Qed.

Lemma last_two {A} (l : list A) (a b d : A) : last (l ++ [a; b]) d = b.
Proof.
  change [a; b] with ([a] ++ [b]). rewrite app_assoc. apply last_last.
Qed.

Lemma find_first {A} (f : A -> bool) (l : list A) (x : A) :
  find f l = Some x ->
  exists pre post,
    l = pre ++ x :: post /\ f x = true /\ forall q, In q pre -> f q = false.
Proof.
  induction l as [| a l IH]; simpl; [discriminate |].
  destruct (f a) eqn:Hfa.
  - intros [= ->]. exists [], l. repeat split; [assumption | intros q []].
  - intros H. destruct (IH H) as (pre & post & -> & Hx & Hpre).
    exists (a :: pre), post. repeat split; [assumption |].
    intros q [<- | Hq]; [assumption | now apply Hpre].
Qed.

Lemma In_firstn {A} (n : nat) (l : list A) (x : A) :
  In x (firstn n l) -> In x l.
Proof.
  revert n. induction l as [| a l IH]; intros [| n]; simpl; try tauto.
  intros [-> | H]; [now left | right; now apply (IH n)].
Qed.

Lemma firstn_NoDup {A} (n : nat) (l : list A) : NoDup l -> NoDup (firstn n l).
Proof.
  revert n. induction l as [| a l IH]; intros n Hnd.
  - now rewrite firstn_nil.
  - destruct n as [| n]; [constructor |]. simpl.
    inversion Hnd as [| ? ? Hnotin Hnd']; subst. constructor.
    + intros Hin. apply Hnotin. now apply In_firstn in Hin.
    + now apply IH.
Qed.

Lemma stderr_lines_app (t1 t2 : list event) :
  stderr_lines (t1 ++ t2) = stderr_lines t1 ++ stderr_lines t2.
Proof. apply filter_app. Qed.

Lemma stderr_lines_cons (e : event) (t : list event) :
  stderr_lines (e :: t) = if is_err e then e :: stderr_lines t else stderr_lines t.
Proof. reflexivity. Qed.

Lemma stderr_lines_nil : stderr_lines [] = [].
Proof. reflexivity. Qed.

Lemma stderr_lines_avail (l : list string) : stderr_lines (map avail_line l) = [].
Proof. induction l; simpl; auto. Qed.

Ltac errs_norm :=
  repeat first
    [ rewrite stderr_lines_app
    | rewrite stderr_lines_avail
    | rewrite stderr_lines_cons
    | rewrite stderr_lines_nil
    | progress cbn [is_err header_line avail_line app fst] ].

Lemma listed_title_name_line (s : string) :
  listed_title (Out (line "XXX: bpf_object__name:%s") [AStr s]) = None.
Proof. reflexivity. Qed.

Ltac titles_norm :=
  repeat first
    [ rewrite listed_titles_app
    | rewrite listed_titles_avail
    | rewrite listed_title_name_line
    | progress cbn [listed_titles header_line app fst]
    | progress cbn [listed_title] ].

Section Extras.
Context {defs : common_user}.

(** X1. [load_bpf_object_file] makes exactly one call, the load of the
    file as an XDP object. When the call answers a non-zero [err] the
    result is [NULL], whatever object came back, and the error line
    carries the file name, [err] and [strerror(-err)]; when it answers 0
    the object is handed back as it is and nothing is written. *)
Theorem load_bpf_object_file_outcome (file : string) (k : kernel) :
  let r := load_bpf_object_file file k in
  let err := fst (k_prog_load k BPF_PROG_TYPE_XDP file) in
  operations (trace r) = [OpLoad] /\
  (err <> 0 ->
   r = ([Call_prog_load BPF_PROG_TYPE_XDP file;
         Err (line "ERR: loading BPF-OBJ file(%s) (%d): %s")
             [AStr file; AInt err; AStrerror (- err)]], None)) /\
  (err = 0 ->
   r = ([Call_prog_load BPF_PROG_TYPE_XDP file],
        snd (k_prog_load k BPF_PROG_TYPE_XDP file))).
Proof.
  cbv zeta. unfold trace. rewrite load_bpf_object_file_run.
  destruct (k_prog_load k BPF_PROG_TYPE_XDP file) as [e o]. cbn [fst snd].
  destruct (e =? 0) eqn:He; cbn [negb]; tests_to_Z.
  - repeat split; intros; (reflexivity || congruence).
  - repeat split; intros; (reflexivity || congruence).
Qed.

(** X2. On the load path, when [load_bpf_object_file] gives [NULL],
    [main] returns the load failure status after the single load call:
    no selection, no link call, no info query, and the last line written
    is [main]'s own error line with the file name. *)
Theorem main_cfg_load_failure (cfg : config) (k : kernel) :
  ifindex cfg <> -1 ->
  do_unload cfg = false ->
  result (load_bpf_object_file (filename cfg) k) = None ->
  result (main_cfg cfg k) = EXIT_FAIL_BPF /\
  operations (trace (main_cfg cfg k)) = [OpLoad] /\
  last (trace (main_cfg cfg k)) Usage
  = Err (line "ERR: loading file: %s") [AStr (filename cfg)].
Proof.
  intros Hi Hu. unfold result, trace.
  rewrite main_cfg_load, load_bpf_object_file_run by assumption.
  destruct (k_prog_load k BPF_PROG_TYPE_XDP (filename cfg)) as [e o].
  destruct (negb (e =? 0)); cbn [fst snd].
  - intros _. repeat split.
  - intros ->. repeat split.
Qed.

(** X3. On the unload path [main] writes its first line, makes the one
    link call with descriptor [-1] on the configured interface and flag
    word, and returns: the attachment failure status after the unload
    error line when the call answers a negative value, the success status
    otherwise. Nothing else of the configuration or of the kernel is
    consulted: two configurations that agree on the interface and the flag
    word give the same status and the same link call. *)
Theorem main_cfg_unload_path (cfg : config) (k : kernel) :
  ifindex cfg <> -1 ->
  do_unload cfg = true ->
  main_cfg cfg k =
    (if k_set_link k (ifindex cfg) (-1) (xdp_flags cfg) <? 0
     then ([header_line cfg;
            Call_set_link (ifindex cfg) (-1) (xdp_flags cfg);
            detach_error_line (k_set_link k (ifindex cfg) (-1) (xdp_flags cfg))],
           EXIT_FAIL_XDP)
     else ([header_line cfg;
            Call_set_link (ifindex cfg) (-1) (xdp_flags cfg)],
           EXIT_OK)) /\
  (forall cfg',
     ifindex cfg' = ifindex cfg -> xdp_flags cfg' = xdp_flags cfg ->
     do_unload cfg' = true ->
     result (main_cfg cfg' k) = result (main_cfg cfg k) /\
     link_calls (trace (main_cfg cfg' k)) = link_calls (trace (main_cfg cfg k))).
Proof.
  intros Hi Hu.
  assert (Hrun : forall c, ifindex c <> -1 -> do_unload c = true ->
            main_cfg c k =
            (if k_set_link k (ifindex c) (-1) (xdp_flags c) <? 0
             then ([header_line c;
                    Call_set_link (ifindex c) (-1) (xdp_flags c);
                    detach_error_line (k_set_link k (ifindex c) (-1) (xdp_flags c))],
                   EXIT_FAIL_XDP)
             else ([header_line c;
                    Call_set_link (ifindex c) (-1) (xdp_flags c)],
                   EXIT_OK))).
  { intros c Hc Huc. rewrite main_cfg_unload, xdp_unload_run by assumption.
    cbv zeta.
    destruct (k_set_link k (ifindex c) (-1) (xdp_flags c) <? 0); reflexivity. }
  split; [now apply Hrun |].
  intros cfg' Hidx Hflags Hu'.
  assert (Hi' : ifindex cfg' <> -1) by now rewrite Hidx.
  rewrite (Hrun cfg Hi Hu), (Hrun cfg' Hi' Hu'), Hidx, Hflags.
  destruct (k_set_link k (ifindex cfg) (-1) (xdp_flags cfg) <? 0);
    split; reflexivity.
Qed.

(** X4. When every stage succeeds (the object loads, a program carries
    the requested title, its descriptor is positive, the link call does
    not answer a negative value, the info query answers 0) and [EXIT_OK]
    is the zero status, [main] performs load, select, attach, info query,
    ends with the confirmation line built from the kernel's answer (name
    and id) and the configuration (device name and index), and returns
    [EXIT_OK]. *)
Theorem main_cfg_success (cfg : config) (k : kernel)
    (obj : bpf_object) (prog : bpf_program) (info : bpf_prog_info) :
  EXIT_OK = 0 ->
  ifindex cfg <> -1 ->
  do_unload cfg = false ->
  k_prog_load k BPF_PROG_TYPE_XDP (filename cfg) = (0, Some obj) ->
  find_program_by_title obj (progname cfg) = Some prog ->
  0 < bpf_program__fd prog ->
  0 <= k_set_link k (ifindex cfg) (bpf_program__fd prog) (xdp_flags cfg) ->
  k_get_info k (bpf_program__fd prog) = (0, info) ->
  main_cfg cfg k =
    (selected_prefix cfg obj
     ++ [Call_set_link (ifindex cfg) (bpf_program__fd prog) (xdp_flags cfg);
         Call_get_info (bpf_program__fd prog);
         success_line cfg info],
     EXIT_OK) /\
  operations (trace (main_cfg cfg k)) = [OpLoad; OpSelect; OpAttach; OpInfo].
Proof.
  intros Hok Hi Hu Hload Hfind Hfd Hlink Hinfo.
  assert (Hrun : main_cfg cfg k =
    (selected_prefix cfg obj
     ++ [Call_set_link (ifindex cfg) (bpf_program__fd prog) (xdp_flags cfg);
         Call_get_info (bpf_program__fd prog);
         success_line cfg info],
     EXIT_OK)).
  { rewrite main_cfg_load, load_bpf_object_file_run, Hload by assumption.
    cbn [Z.eqb negb]. cbv zeta. rewrite Hfind, after_select_run. cbv zeta.
    rewrite (proj2 (Z.leb_gt _ _) Hfd), xdp_load_run. cbv zeta.
    rewrite (proj2 (Z.ltb_ge _ _) Hlink), Hok. cbn [Z.eqb negb].
    rewrite Hinfo. cbn [Z.eqb negb].
    unfold selected_prefix, success_line. now list_norm. }
  split; [exact Hrun |].
  rewrite Hrun. unfold trace, selected_prefix. ops_norm.
  assert (Hne : (bpf_program__fd prog =? -1) = false)
    by (apply Z.eqb_neq; lia).
  now rewrite Hne.
Qed.

(** X5. When the link call of the attach answers a negative value (and
    the attachment failure status is not zero), [main] returns that
    status right after [xdp_load]'s error line and hint: the operations
    are load, select, attach, and the info query is never made. *)
Theorem main_cfg_attach_failure (cfg : config) (k : kernel)
    (obj : bpf_object) (prog : bpf_program) :
  EXIT_FAIL_XDP <> 0 ->
  ifindex cfg <> -1 ->
  do_unload cfg = false ->
  k_prog_load k BPF_PROG_TYPE_XDP (filename cfg) = (0, Some obj) ->
  find_program_by_title obj (progname cfg) = Some prog ->
  0 < bpf_program__fd prog ->
  k_set_link k (ifindex cfg) (bpf_program__fd prog) (xdp_flags cfg) < 0 ->
  main_cfg cfg k =
    (selected_prefix cfg obj
     ++ Call_set_link (ifindex cfg) (bpf_program__fd prog) (xdp_flags cfg)
     :: attach_error_line cfg
          (k_set_link k (ifindex cfg) (bpf_program__fd prog) (xdp_flags cfg))
     :: fst (xdp_load_hint
               (- k_set_link k (ifindex cfg) (bpf_program__fd prog) (xdp_flags cfg)) k),
     EXIT_FAIL_XDP) /\
  operations (trace (main_cfg cfg k)) = [OpLoad; OpSelect; OpAttach] /\
  (forall fd, ~ In (Call_get_info fd) (trace (main_cfg cfg k))).
Proof.
  intros Hx Hi Hu Hload Hfind Hfd Hlink.
  assert (Hrun : main_cfg cfg k =
    (selected_prefix cfg obj
     ++ Call_set_link (ifindex cfg) (bpf_program__fd prog) (xdp_flags cfg)
     :: attach_error_line cfg
          (k_set_link k (ifindex cfg) (bpf_program__fd prog) (xdp_flags cfg))
     :: fst (xdp_load_hint
               (- k_set_link k (ifindex cfg) (bpf_program__fd prog) (xdp_flags cfg)) k),
     EXIT_FAIL_XDP)).
  { rewrite main_cfg_load, load_bpf_object_file_run, Hload by assumption.
    cbn [Z.eqb negb]. cbv zeta. rewrite Hfind, after_select_run. cbv zeta.
    rewrite (proj2 (Z.leb_gt _ _) Hfd), xdp_load_run. cbv zeta.
    rewrite (proj2 (Z.ltb_lt _ _) Hlink), (proj2 (Z.eqb_neq _ _) Hx).
    cbn [negb]. unfold selected_prefix, attach_error_line. now list_norm. }
  split; [exact Hrun |]. rewrite Hrun. unfold trace. cbn [fst]. split.
  - unfold selected_prefix, attach_error_line. ops_norm.
    assert (Hne : (bpf_program__fd prog =? -1) = false)
      by (apply Z.eqb_neq; lia).
    rewrite Hne, (proj1 (xdp_load_hint_silent _ k)). reflexivity.
  - intros fd Hin. unfold selected_prefix, attach_error_line in Hin.
    in_trace Hin.
    destruct Hin as [[Hin | [Hin | [Hin | [Hin | [Hin | []]]]]]
                    | [Hin | [Hin | Hin]]]; try discriminate.
    + apply not_in_avail in Hin. destruct Hin as [s Hs]. discriminate.
    + destruct (_ =? EBUSY); [destruct Hin as [Hin | []]; discriminate |].
      destruct (_ =? EOPNOTSUPP); [destruct Hin as [Hin | []]; discriminate |].
      destruct Hin.
Qed.


(** X6. The value [main] returns is one of the four exit statuses of
    [common_user.h], except on one path: when the info query fails, it is
    the query's own non-zero answer. *)
Theorem main_cfg_status_range (cfg : config) (k : kernel) :
  result (main_cfg cfg k) = EXIT_OK \/
  result (main_cfg cfg k) = EXIT_FAIL_OPTION \/
  result (main_cfg cfg k) = EXIT_FAIL_XDP \/
  result (main_cfg cfg k) = EXIT_FAIL_BPF \/
  exists fd,
    In (Call_get_info fd) (trace (main_cfg cfg k)) /\
    result (main_cfg cfg k) = fst (k_get_info k fd) /\
    result (main_cfg cfg k) <> 0.
Proof.
  main_cases cfg k; tests_to_Z; auto.
  all: do 4 right; exists (bpf_program__fd prog); rewrite Hinfo; cbn [fst];
    (split; [| split; [reflexivity | assumption]]);
    rewrite !in_app_iff; cbn [In]; auto.
Qed.

(** X7. [print_avail_progs] writes one line per XDP program of the
    object and nothing for the others: as many lines as there are XDP
    programs, a title is listed exactly when an XDP program of the object
    carries it, the listing of two program lists put end to end is the two
    listings put end to end, and no call reaches the kernel, whose answers
    do not matter. *)
Theorem print_avail_progs_listing (obj : bpf_object) (k : kernel) :
  List.length (trace (print_avail_progs obj k))
  = List.length (filter bpf_program__is_xdp (programs obj)) /\
  (forall s, In (avail_line s) (trace (print_avail_progs obj k)) <->
             exists p, In p (programs obj) /\ bpf_program__is_xdp p = true /\
                       bpf_program__title p = s) /\
  (forall name l1 l2,
     programs obj = l1 ++ l2 ->
     trace (print_avail_progs obj k)
     = trace (print_avail_progs {| object_name := name; programs := l1 |} k)
       ++ trace (print_avail_progs {| object_name := name; programs := l2 |} k)) /\
  operations (trace (print_avail_progs obj k)) = [] /\
  (forall k', print_avail_progs obj k' = print_avail_progs obj k).
Proof.
  unfold trace. rewrite print_avail_progs_run. cbn [fst]. repeat split.
  - unfold xdp_titles. now rewrite !length_map.
  - intros Hin. apply in_map_iff in Hin. destruct Hin as (s' & Heq & Hin).
    injection Heq as ->. unfold xdp_titles in Hin.
    apply in_map_iff in Hin. destruct Hin as (p & Ht & Hp).
    apply filter_In in Hp. exists p. tauto.
  - intros (p & Hin & Hx & <-). apply in_map. unfold xdp_titles.
    apply in_map. apply filter_In. now split.
  - intros name l1 l2 Hl. rewrite !print_avail_progs_run. cbn [fst].
    unfold xdp_titles. cbn [programs]. rewrite Hl.
    now rewrite filter_app, !map_app.
  - apply operations_avail.
  - intros k'. now rewrite print_avail_progs_run.
Qed.

(** X8. On the load path, a link call of [main] is made on the
    configured interface with the configured flag word, and carries the
    descriptor of the first program of the loaded object whose title is the
    requested name: the programs before it in the object have another
    title (among programs that share a title the first one wins). *)
Theorem main_cfg_attach_target (cfg : config) (k : kernel) (idx fd flags : Z) :
  do_unload cfg = false ->
  In (Call_set_link idx fd flags) (trace (main_cfg cfg k)) ->
  idx = ifindex cfg /\ flags = xdp_flags cfg /\
  exists obj pre prog post,
    k_prog_load k BPF_PROG_TYPE_XDP (filename cfg) = (0, Some obj) /\
    programs obj = pre ++ prog :: post /\
    bpf_program__title prog = progname cfg /\
    (forall q, In q pre -> bpf_program__title q <> progname cfg) /\
    fd = bpf_program__fd prog.
Proof.
  intros Hu Hin. apply In_link_calls in Hin; [| reflexivity].
  revert Hin. main_cases cfg k; try discriminate; links_norm;
    rewrite ?(proj2 (xdp_load_hint_silent _ k)); cbn [In app];
    try tauto.
  all: intros [Heq | []]; injection Heq as <- <- <-;
    split; [reflexivity |]; split; [reflexivity |];
    tests_to_Z; subst e;
    destruct (find_first _ _ _ Hfind) as (pre & post & Hsplit & Ht & Hpre);
    exists obj, pre, prog, post;
    (split; [reflexivity |]); (split; [exact Hsplit |]);
    (split; [now apply String.eqb_eq in Ht |]);
    (split; [| reflexivity]);
    intros q Hq; apply String.eqb_neq; now apply Hpre.
Qed.

(** X9. [main] never repeats an operation: a run makes at most one link
    call (attach or detach, never both, never a retry), and each of load,
    select, attach, detach and info query happens at most once. *)
Theorem main_cfg_no_retry (cfg : config) (k : kernel) :
  (List.length (link_calls (trace (main_cfg cfg k))) <= 1)%nat /\
  NoDup (operations (trace (main_cfg cfg k))).
Proof.
  split.
  - main_cases cfg k; links_norm;
      rewrite ?(proj2 (xdp_load_hint_silent _ k)); cbn [List.length app]; lia.
  - pose proof (main_cfg_operations cfg k) as H.
    destruct (ifindex cfg =? -1); [rewrite H; constructor |].
    destruct (do_unload cfg).
    + rewrite H. repeat constructor. intros [].
    + destruct H as (n & _ & ->). apply firstn_NoDup.
      repeat constructor; cbn [In]; intuition discriminate.
Qed.

(** X10. With [EXIT_OK] zero and the three failure statuses non-zero,
    [main] returns [EXIT_OK] exactly when the requested work was done: the
    interface is given and, for an unload, the link call did not answer a
    negative value; for a load, the object loaded, a program carries the
    requested title, its descriptor is positive, the link call did not
    answer a negative value and the info query answered 0. *)
Theorem main_cfg_success_iff (cfg : config) (k : kernel) :
  EXIT_OK = 0 ->
  EXIT_FAIL_OPTION <> 0 ->
  EXIT_FAIL_XDP <> 0 ->
  EXIT_FAIL_BPF <> 0 ->
  result (main_cfg cfg k) = EXIT_OK <->
  ifindex cfg <> -1 /\
  if do_unload cfg
  then 0 <= k_set_link k (ifindex cfg) (-1) (xdp_flags cfg)
  else exists obj prog info,
         k_prog_load k BPF_PROG_TYPE_XDP (filename cfg) = (0, Some obj) /\
         find_program_by_title obj (progname cfg) = Some prog /\
         0 < bpf_program__fd prog /\
         0 <= k_set_link k (ifindex cfg) (bpf_program__fd prog) (xdp_flags cfg) /\
         k_get_info k (bpf_program__fd prog) = (0, info).
Proof.
  intros Hok Hopt Hxdp Hbpf.
  main_cases cfg k; tests_to_Z; try congruence.
  all: split;
    [ intros Hr; try congruence
    | intros [Hne Hr]; try contradiction;
      repeat match goal with
      | H : exists _, _ |- _ => destruct H
      | H : _ /\ _ |- _ => destruct H
      | H : (_, _) = (_, _) |- _ => injection H as ? ?; subst
      | H : Some _ = Some _ |- _ => injection H as ?; subst
      | H1 : ?a = Some ?p, H2 : ?a = Some ?q |- _ =>
          assert (q = p) by congruence; subst q; clear H2
      | H1 : ?a = (?u, _), H2 : ?a = (0, _) |- _ =>
          assert (u = 0) by congruence; clear H2
      end;
      subst; try congruence; try lia ].
  - split; [assumption | lia].
  - split; [assumption |]. subst e. exists obj, prog, info.
    repeat split; try assumption; try lia. congruence.
Qed.

(** X11. The info query is made only after an attach that succeeded
    (the attachment failure status being non-zero): an info query in the
    trace is on the descriptor that the link call of the run carried, that
    descriptor is positive, and the link call did not answer a negative
    value. *)
Theorem main_cfg_info_after_attach (cfg : config) (k : kernel) (fd : Z) :
  EXIT_FAIL_XDP <> 0 ->
  In (Call_get_info fd) (trace (main_cfg cfg k)) ->
  0 < fd /\
  link_calls (trace (main_cfg cfg k))
  = [Call_set_link (ifindex cfg) fd (xdp_flags cfg)] /\
  0 <= k_set_link k (ifindex cfg) fd (xdp_flags cfg).
Proof.
  intros Hxdp Hin. revert Hin.
  main_cases cfg k; tests_to_Z; try congruence; intros Hin; in_trace Hin.
  all: repeat match goal with
       | H : _ \/ _ |- _ => destruct H
       | H : False |- _ => destruct H
       | H : In _ (map avail_line _) |- _ =>
           apply not_in_avail in H; destruct H as [? H]
       | H : In _ (if ?c then _ else _) |- _ => destruct c; cbn [In] in H
       end; try discriminate.
  all: match goal with
       | H : Call_get_info _ = Call_get_info _ |- _ => injection H as <-
       end;
    (split; [assumption |]); (split; [| assumption]);
    now links_norm.
Qed.

(** X12. The confirmation line is written only by a run that returns
    [EXIT_OK], and it is then the last thing written. *)
Theorem main_cfg_success_line_sound (cfg : config) (k : kernel)
    (info : bpf_prog_info) :
  In (success_line cfg info) (trace (main_cfg cfg k)) ->
  result (main_cfg cfg k) = EXIT_OK /\
  last (trace (main_cfg cfg k)) Usage = success_line cfg info /\
  exists fd, k_get_info k fd = (0, info).
Proof.
  intros Hin. revert Hin.
  main_cases cfg k; tests_to_Z; intros Hin; in_trace Hin.
  all: repeat match goal with
       | H : _ \/ _ |- _ => destruct H
       | H : False |- _ => destruct H
       | H : In _ (map avail_line _) |- _ =>
           apply not_in_avail in H; destruct H as [? H]
       | H : In _ (if ?c then _ else _) |- _ => destruct c; cbn [In] in H
       end; try discriminate.
  all: match goal with
       | H : Out _ _ = Out _ _ |- _ => injection H as Hn Hid
       end;
    assert (Hinfo' : info0 = info)
      by (destruct info0, info; cbn in Hn, Hid; congruence);
    subst info0 e';
    (split; [reflexivity |]);
    (split; [| now exists (bpf_program__fd prog)]);
    rewrite ?app_assoc; unfold success_line; apply last_two.
Qed.


(** X13. With [EXIT_OK] zero and the three failure statuses non-zero,
    [main] is silent on stderr exactly when it returns [EXIT_OK]: every
    other return is announced by at least one error line, and a successful
    run writes none. *)
Theorem main_cfg_stderr_iff (cfg : config) (k : kernel) :
  EXIT_OK = 0 ->
  EXIT_FAIL_OPTION <> 0 ->
  EXIT_FAIL_XDP <> 0 ->
  EXIT_FAIL_BPF <> 0 ->
  stderr_lines (trace (main_cfg cfg k)) = [] <-> result (main_cfg cfg k) = EXIT_OK.
Proof.
  intros Hok Hopt Hxdp Hbpf.
  main_cases cfg k; tests_to_Z; try congruence; errs_norm;
    cbn [app]; split; intros H; try discriminate; try congruence;
    try reflexivity.
Qed.

(** X14. Whenever the object loads, whatever happens afterwards
    (selection, descriptor test, attach, info query), the titles that the
    run lists are exactly the titles of the XDP programs of the object, in
    the object's order: the listing does not depend on the outcome of the
    selection. *)
Theorem main_cfg_lists_on_every_load (cfg : config) (k : kernel)
    (obj : bpf_object) :
  ifindex cfg <> -1 ->
  do_unload cfg = false ->
  k_prog_load k BPF_PROG_TYPE_XDP (filename cfg) = (0, Some obj) ->
  listed_titles (trace (main_cfg cfg k)) = xdp_titles obj.
Proof.
  intros Hi' Hu' Hload'. revert Hload'.
  main_cases cfg k; try congruence; intros [= -> ->]; try discriminate.
  all: rewrite ?xdp_load_hint_run; cbn [fst];
    repeat match goal with
    | |- context [if ?c then _ else _] => destruct c
    end;
    titles_norm; now rewrite ?app_nil_r.
Qed.

End Extras.

(** ** Concrete runs of the further properties *)

Lemma main_cfg_load_failure_witness :
  let k := Scenario.kernel_load_fails (-2) in
  result (load_bpf_object_file (filename Sample.cfg) k) = None /\
  result (main_cfg (defs := Sample.defs) Sample.cfg k) = 40 /\
  operations (trace (main_cfg (defs := Sample.defs) Sample.cfg k)) = [OpLoad].
Proof.
  cbv zeta. split; [reflexivity |].
  destruct (@main_cfg_load_failure Sample.defs Sample.cfg
              (Scenario.kernel_load_fails (-2)))
    as (Hr & Ho & _).
  - simpl. lia.
  - reflexivity.
  - reflexivity.
  - split; assumption.
Defined.

Lemma main_cfg_unload_path_witness :
  main_cfg (defs := Sample.defs) Scenario.cfg_unload
           (Sample.kernel_of Sample.bundle (-19) 0)
  = ([header_line (defs := Sample.defs) Scenario.cfg_unload;
      Call_set_link 3 (-1) 5; detach_error_line (-19)], 30) /\
  main_cfg (defs := Sample.defs) Scenario.cfg_unload
           (Sample.kernel_of Sample.bundle 0 0)
  = ([header_line (defs := Sample.defs) Scenario.cfg_unload;
      Call_set_link 3 (-1) 5], 0).
Proof.
  split.
  - refine (proj1 (@main_cfg_unload_path Sample.defs Scenario.cfg_unload
                     (Sample.kernel_of Sample.bundle (-19) 0) _ _));
      [simpl; lia | reflexivity].
  - refine (proj1 (@main_cfg_unload_path Sample.defs Scenario.cfg_unload
                     (Sample.kernel_of Sample.bundle 0 0) _ _));
      [simpl; lia | reflexivity].
Defined.

Lemma main_cfg_success_witness :
  let k := Sample.kernel_of Sample.bundle 0 0 in
  result (main_cfg (defs := Sample.defs) Sample.cfg k) = 0 /\
  operations (trace (main_cfg (defs := Sample.defs) Sample.cfg k))
  = [OpLoad; OpSelect; OpAttach; OpInfo].
Proof.
  cbv zeta.
  destruct (@main_cfg_success Sample.defs Sample.cfg
              (Sample.kernel_of Sample.bundle 0 0) Sample.bundle Sample.xdp_pass
              {| info_name := "xdp_pass"; info_id := 42 |})
    as [Hrun Hops].
  - reflexivity.
  - simpl. lia.
  - reflexivity.
  - reflexivity.
  - reflexivity.
  - simpl. lia.
  - simpl. lia.
  - reflexivity.
  - split; [now rewrite Hrun | exact Hops].
Defined.

Lemma main_cfg_attach_failure_witness :
  let k := Sample.kernel_of Sample.bundle (-16) 0 in
  result (main_cfg (defs := Sample.defs) Sample.cfg k) = 30 /\
  operations (trace (main_cfg (defs := Sample.defs) Sample.cfg k))
  = [OpLoad; OpSelect; OpAttach] /\
  ~ In (Call_get_info 7) (trace (main_cfg (defs := Sample.defs) Sample.cfg k)).
Proof.
  cbv zeta.
  destruct (@main_cfg_attach_failure Sample.defs Sample.cfg
              (Sample.kernel_of Sample.bundle (-16) 0) Sample.bundle Sample.xdp_pass)
    as (Hrun & Hops & Hinfo).
  - simpl. lia.
  - simpl. lia.
  - reflexivity.
  - reflexivity.
  - reflexivity.
  - simpl. lia.
  - simpl. lia.
  - split; [now rewrite Hrun |]. split; [exact Hops | apply Hinfo].
Defined.

Lemma main_cfg_attach_target_witness :
  let k := Sample.kernel_of Scenario.bundle_twins 0 0 in
  In (Call_set_link 3 11 5) (trace (main_cfg (defs := Sample.defs) Sample.cfg k)) /\
  exists obj pre prog post,
    k_prog_load k BPF_PROG_TYPE_XDP (filename Sample.cfg) = (0, Some obj) /\
    programs obj = pre ++ prog :: post /\
    bpf_program__title prog = progname Sample.cfg /\
    (forall q, In q pre -> bpf_program__title q <> progname Sample.cfg) /\
    11 = bpf_program__fd prog.
Proof.
  cbv zeta.
  assert (Hin : In (Call_set_link 3 11 5)
                   (trace (main_cfg (defs := Sample.defs) Sample.cfg
                             (Sample.kernel_of Scenario.bundle_twins 0 0))))
    by (vm_compute; tauto).
  split; [exact Hin |].
  exact (proj2 (proj2 (@main_cfg_attach_target Sample.defs Sample.cfg
                         (Sample.kernel_of Scenario.bundle_twins 0 0) 3 11 5
                         eq_refl Hin))).
Defined.

Lemma main_cfg_success_iff_witness :
  result (main_cfg (defs := Sample.defs) Sample.cfg
            (Sample.kernel_of Sample.bundle 0 0)) = 0.
Proof.
  apply (@main_cfg_success_iff Sample.defs Sample.cfg
           (Sample.kernel_of Sample.bundle 0 0));
    [reflexivity | discriminate | discriminate | discriminate |].
  split; [simpl; lia |].
  exists Sample.bundle, Sample.xdp_pass, {| info_name := "xdp_pass"; info_id := 42 |}.
  repeat split; try reflexivity; simpl; lia.
Defined.

Lemma main_cfg_info_after_attach_witness :
  let k := Sample.kernel_of Sample.bundle 0 0 in
  In (Call_get_info 7) (trace (main_cfg (defs := Sample.defs) Sample.cfg k)) /\
  link_calls (trace (main_cfg (defs := Sample.defs) Sample.cfg k))
  = [Call_set_link 3 7 5].
Proof.
  cbv zeta.
  assert (Hin : In (Call_get_info 7)
                   (trace (main_cfg (defs := Sample.defs) Sample.cfg
                             (Sample.kernel_of Sample.bundle 0 0))))
    by (vm_compute; tauto).
  split; [exact Hin |].
  refine (proj1 (proj2 (@main_cfg_info_after_attach Sample.defs Sample.cfg
                          (Sample.kernel_of Sample.bundle 0 0) 7 _ Hin))).
  discriminate.
Defined.

Lemma main_cfg_success_line_sound_witness :
  let k := Sample.kernel_of Sample.bundle 0 0 in
  let info := {| info_name := "xdp_pass"; info_id := 42 |} in
  In (success_line Sample.cfg info)
     (trace (main_cfg (defs := Sample.defs) Sample.cfg k)) /\
  result (main_cfg (defs := Sample.defs) Sample.cfg k) = 0.
Proof.
  cbv zeta.
  assert (Hin : In (success_line Sample.cfg {| info_name := "xdp_pass"; info_id := 42 |})
                   (trace (main_cfg (defs := Sample.defs) Sample.cfg
                             (Sample.kernel_of Sample.bundle 0 0))))
    by (vm_compute; tauto).
  split; [exact Hin |].
  exact (proj1 (@main_cfg_success_line_sound Sample.defs Sample.cfg
                  (Sample.kernel_of Sample.bundle 0 0) _ Hin)).
Defined.

Lemma main_cfg_stderr_iff_witness :
  stderr_lines (trace (main_cfg (defs := Sample.defs) Sample.cfg
                         (Sample.kernel_of Sample.bundle 0 0))) = [] /\
  result (main_cfg (defs := Sample.defs) Sample.cfg
            (Sample.kernel_of Sample.bundle 0 0)) = 0.
Proof.
  assert (Hs : stderr_lines (trace (main_cfg (defs := Sample.defs) Sample.cfg
                                      (Sample.kernel_of Sample.bundle 0 0))) = [])
    by reflexivity.
  split; [exact Hs |].
  apply (@main_cfg_stderr_iff Sample.defs Sample.cfg
           (Sample.kernel_of Sample.bundle 0 0));
    [reflexivity | discriminate | discriminate | discriminate | exact Hs].
Defined.

Lemma main_cfg_lists_on_every_load_witness :
  listed_titles (trace (main_cfg (defs := Sample.defs) Sample.cfg
                          (Sample.kernel_of Sample.bundle (-16) 0)))
  = ["xdp_pass"; "xdp_drop"].
Proof.
  apply (@main_cfg_lists_on_every_load Sample.defs Sample.cfg
           (Sample.kernel_of Sample.bundle (-16) 0) Sample.bundle);
    [simpl; lia | reflexivity | reflexivity].
Defined.

